(** * WorkflowRunsTable: the GitHub Actions workflow-run table of the
      Backstage catalog plugin.

    Shallow embedding of
    [plugins/github-actions/src/components/WorkflowRunsTable/WorkflowRunsTable.tsx]:
    the column definitions [generatedColumns], the presentational component
    [WorkflowRunsTableView] and the container [WorkflowRunsTable].

    The file has three layers of definitions, then the theorems:
    - [JS]: the fragments of JavaScript evaluation the component relies on
      (nullish coalescing, truthiness of [object | undefined], template
      literals, [String.prototype.split], array destructuring, exceptions);
    - [ReactRouter]: the routing primitive [generatePath] imported from
      [react-router-dom];
    - the components themselves, over abstract types for JS numbers, for the
      effects of callbacks and for catalog entities. *)

From Stdlib Require Import String Ascii List Bool Arith Lia.
Import ListNotations.
Open Scope string_scope.

(* ================================================================== *)
(** ** JavaScript evaluation *)
(* ================================================================== *)

Module JS.

(** A value of type [T | undefined] is an [option T]; [None] is
    [undefined]. *)

(** Exceptions that evaluation can raise. [ReadOfUndefined p] is the
    [TypeError] of reading property [p] of [undefined]; [Raised m] is an
    [Error] thrown by library code with message [m]. *)
Inductive Error : Type :=
| ReadOfUndefined (prop : string)
| Raised (msg : string).

Inductive Result (A : Type) : Type :=
| Ok (a : A)
| Throw (e : Error).
Arguments Ok {A} a.
Arguments Throw {A} e.

Definition bind {A B : Type} (m : Result A) (k : A -> Result B) : Result B :=
  match m with
  | Ok a => k a
  | Throw e => Throw e
  end.

Definition succeeds {A : Type} (m : Result A) : bool :=
  match m with
  | Ok _ => true
  | Throw _ => false
  end.

(** [x ?? d] *)
Definition coalesce {A : Type} (x : option A) (d : A) : A :=
  match x with
  | Some a => a
  | None => d
  end.

(** [ToBoolean] on a value of type [object | undefined]: every object,
    an empty array included, is truthy; [undefined] is falsy. *)
Definition truthy {A : Type} (x : option A) : bool :=
  match x with
  | Some _ => true
  | None => false
  end.

(** [!x] *)
Definition not {A : Type} (x : option A) : bool := negb (truthy x).

(** [ToString] as applied by a template literal to [string | undefined]. *)
Definition toString (x : option string) : string :=
  match x with
  | Some s => s
  | None => "undefined"
  end.

(** [o?.p] where [o : O | undefined] and [p] may itself be absent. *)
Definition optChain {O A : Type} (o : option O) (p : O -> option A)
  : option A :=
  match o with
  | Some v => p v
  | None => None
  end.

(** [o.p] where [o] may be [undefined] at run time: reading a property of
    [undefined] raises a [TypeError]. *)
Definition member {O A : Type} (o : option O) (name : string)
           (p : O -> option A) : Result (option A) :=
  match o with
  | Some v => Ok (p v)
  | None => Throw (ReadOfUndefined name)
  end.

(** [s.split(sep)] for a one-character separator [sep]. The result is
    never empty: the empty string splits into [[""]]. *)
Fixpoint split (sep : ascii) (s : string) : list string :=
  match s with
  | EmptyString => [EmptyString]
  | String c rest =>
      if Ascii.eqb c sep then EmptyString :: split sep rest
      else match split sep rest with
           | piece :: pieces => String c piece :: pieces
           | [] => [String c EmptyString]
           end
  end.

(** [a.join(sep)] *)
Fixpoint join (sep : ascii) (pieces : list string) : string :=
  match pieces with
  | [] => EmptyString
  | [p] => p
  | p :: ps => p ++ String sep (join sep ps)
  end.

(** [a[i]]: reading past the end of an array yields [undefined]. *)
Definition index {A : Type} (a : list A) (i : nat) : option A :=
  nth_error a i.

(** [c] occurs in [s]. *)
Fixpoint occurs (c : ascii) (s : string) : bool :=
  match s with
  | EmptyString => false
  | String d rest => Ascii.eqb d c || occurs c rest
  end.

(** How many times [c] occurs in [s]. *)
Fixpoint count (c : ascii) (s : string) : nat :=
  match s with
  | EmptyString => 0
  | String d rest => (if Ascii.eqb d c then 1 else 0) + count c rest
  end.

End JS.

Notation "x <- m ;; k" := (JS.bind m (fun x => k))
  (at level 61, m at next level, right associativity).

(* ================================================================== *)
(** ** The routing primitive *)
(* ================================================================== *)

Module ReactRouter.

(** A params object, as an association list from parameter names to
    values that may be [undefined]. *)
Definition Params : Type := list (string * option string).

(** [params[key]] *)
Fixpoint lookup (params : Params) (key : string) : option string :=
  match params with
  | [] => None
  | (k, v) :: rest => if String.eqb k key then v else lookup rest key
  end.

(** The regular-expression class [\w]. *)
Definition is_word (c : ascii) : bool :=
  let n := nat_of_ascii c in
  (((48 <=? n) && (n <=? 57)) || ((65 <=? n) && (n <=? 90))
   || ((97 <=? n) && (n <=? 122)) || (n =? 95))%nat.

(** The longest prefix of [s] made of [\w] characters. *)
Fixpoint word_prefix (s : string) : string :=
  match s with
  | EmptyString => EmptyString
  | String c rest =>
      if is_word c then String c (word_prefix rest) else EmptyString
  end.

Definition dquote : string := String (ascii_of_nat 34) EmptyString.

Definition missing_param (key : string) : JS.Error :=
  JS.Raised ("Missing " ++ dquote ++ ":" ++ key ++ dquote ++ " param").

(** [pathname.replace(/:(\w+)/g, (_, key) => { invariant(params[key] != null,
    ...); return params[key]; })]: every [:key] of the template is replaced
    by [params[key]], and a missing parameter raises. [skip] counts the
    characters of a key that has just been replaced. *)
Fixpoint interpolate (params : Params) (skip : nat) (s : string)
  : JS.Result string :=
  match s with
  | EmptyString => JS.Ok EmptyString
  | String c rest =>
      match skip with
      | S k => interpolate params k rest
      | O =>
          if Ascii.eqb c ":"%char then
            match word_prefix rest with
            | EmptyString =>
                out <- interpolate params 0 rest ;; JS.Ok (String c out)
            | key =>
                match lookup params key with
                | Some v =>
                    out <- interpolate params (String.length key) rest ;;
                    JS.Ok (v ++ out)
                | None => JS.Throw (missing_param key)
                end
            end
          else
            out <- interpolate params 0 rest ;; JS.Ok (String c out)
      end
  end.

Fixpoint drop_slashes (rev_s : list ascii) : list ascii :=
  match rev_s with
  | c :: rest => if Ascii.eqb c "/"%char then drop_slashes rest else rev_s
  | [] => []
  end.

(** [.replace(/\/*\*$/, _ => params['*'] == null ? '' : ...)] for a params
    object without a ['*'] entry: a trailing splat and the slashes before
    it are removed. *)
Definition strip_splat (s : string) : string :=
  match rev (list_ascii_of_string s) with
  | c :: rest =>
      if Ascii.eqb c "*"%char
      then string_of_list_ascii (rev (drop_slashes rest))
      else s
  | [] => s
  end.

(** [generatePath(pathname, params)] of react-router, for params objects
    without a splat entry. *)
Definition generatePath (pathname : string) (params : Params)
  : JS.Result string :=
  out <- interpolate params 0 pathname ;; JS.Ok (strip_splat out).

End ReactRouter.

(* ================================================================== *)
(** ** The components *)
(* ================================================================== *)

Set Implicit Arguments.
Set Warnings "-register-all".

Section Components.

(** JS numbers, the effect of invoking a callback of type [() => void],
    and catalog entities. The component computes with none of them. *)
Variables number Effect Entity : Type.

(** The routing primitive and the route template [buildRouteRef.path],
    both imported. *)
Variable generatePath : string -> ReactRouter.Params -> JS.Result string.
Variable buildRouteRef_path : string.

(** *** Data model *)

(** Rows as the column renderers receive them at run time: the renderers
    take a [Partial<WorkflowRun>], so every field may be absent; [commit]
    is declared required inside [source] but is an ordinary property read
    at run time. *)
Record Commit : Type := {
  hash : option string;
  commit_url : option string
}.

Record Source : Type := {
  branchName : option string;
  commit : option Commit
}.

Record WorkflowRun : Type := {
  id : option string;
  message : option string;
  url : option string;
  githubUrl : option string;
  source : option Source;
  status : option string;
  conclusion : option string;
  onReRunClick : option Effect
}.

(** A row that inhabits the declared type [WorkflowRun] as far as the
    Message and Source columns read it. *)
Definition valid (row : WorkflowRun) : bool :=
  JS.truthy (id row) && JS.truthy (message row)
  && match source row with
     | Some s => JS.truthy (branchName s)
                 && match commit s with
                    | Some c => JS.truthy (hash c)
                    | None => false
                    end
     | None => false
     end.

(** *** Rendered elements *)

Inductive PropValue : Type :=
| PString (s : string)
| PValue (v : option string)
| PFlag (b : bool)
| PComponent (name : string)
| PHandler (h : option Effect).

(** A React node: a JSX expression child [{e}] holding a string or
    [undefined], or an element with props and children. *)
Inductive Node : Type :=
| Expr (v : option string)
| Element (tag : string) (props : list (string * PropValue))
          (children : list Node).

(** *** Column definitions *)

Record TableColumn : Type := {
  title : string;
  field : option string;
  type : option string;
  width : option string;
  highlight : option bool;
  render : option (WorkflowRun -> JS.Result Node)
}.

Definition renderMessage (row : WorkflowRun) : JS.Result Node :=
  to <- generatePath buildRouteRef_path [("id", id row)] ;;
  JS.Ok (Element "Link"
           [("component", PComponent "RouterLink"); ("to", PString to)]
           [Expr (message row)]).

Definition renderSource (row : WorkflowRun) : JS.Result Node :=
  let branch := JS.optChain (source row) branchName in
  h <- match source row with
       | Some s => JS.member (commit s) "hash" hash
       | None => JS.Ok None
       end ;;
  JS.Ok (Element "Typography"
           [("variant", PString "body2"); ("noWrap", PFlag true)]
           [Element "p" [] [Expr branch]; Element "p" [] [Expr h]]).

Definition renderStatus (row : WorkflowRun) : JS.Result Node :=
  JS.Ok (Element "Box"
           [("display", PString "flex"); ("alignItems", PString "center")]
           [Element "WorkflowRunStatus"
              [("status", PValue (status row));
               ("conclusion", PValue (conclusion row))] []]).

Definition renderActions (row : WorkflowRun) : JS.Result Node :=
  JS.Ok (Element "Tooltip" [("title", PString "Rerun workflow")]
           [Element "IconButton" [("onClick", PHandler (onReRunClick row))]
              [Element "RetryIcon" [] []]]).

Definition generatedColumns : list TableColumn :=
  [ {| title := "ID"; field := Some "id"; type := Some "numeric";
       width := Some "150px"; highlight := None; render := None |};
    {| title := "Message"; field := Some "message"; type := None;
       width := None; highlight := Some true;
       render := Some renderMessage |};
    {| title := "Source"; field := None; type := None; width := None;
       highlight := None; render := Some renderSource |};
    {| title := "Status"; field := None; type := None;
       width := Some "150px"; highlight := None;
       render := Some renderStatus |};
    {| title := "Actions"; field := None; type := None;
       width := Some "10%"; highlight := None;
       render := Some renderActions |} ].

(** The column of [columns] with the given title. *)
Definition column (columns : list TableColumn) (t : string)
  : option TableColumn :=
  find (fun c => String.eqb (title c) t) columns.

(** The cell a column shows for a row: its [render] applied to the row.
    A column without [render] shows the row's [field] and yields [None]
    here. *)
Definition cell (columns : list TableColumn) (t : string)
           (row : WorkflowRun) : option (JS.Result Node) :=
  match column columns t with
  | Some c => match render c with
              | Some r => Some (r row)
              | None => None
              end
  | None => None
  end.

(** *** The view *)

Record Props : Type := {
  loading : bool;
  retry : Effect;
  runs : option (list WorkflowRun);
  projectName : string;
  page : number;
  onChangePage : number -> Effect;
  total : number;
  pageSize : number;
  onChangePageSize : number -> Effect
}.

(** The props of the table widget that the view sets. *)
Record TableOptions : Type := {
  opt_paging : bool;
  opt_pageSize : number;
  opt_padding : string
}.

Record TableAction : Type := {
  act_icon : Node;
  act_tooltip : string;
  act_isFreeAction : bool;
  act_onClick : Effect
}.

Record TableProps : Type := {
  Table_isLoading : bool;
  Table_options : TableOptions;
  Table_totalCount : number;
  Table_page : number;
  Table_actions : list TableAction;
  Table_data : list WorkflowRun;
  Table_onChangePage : number -> Effect;
  Table_onChangeRowsPerPage : number -> Effect;
  Table_style : list (string * string);
  Table_title : Node;
  Table_columns : list TableColumn
}.

Definition WorkflowRunsTableView (p : Props) : TableProps :=
  {| Table_isLoading := loading p;
     Table_options := {| opt_paging := true; opt_pageSize := pageSize p;
                         opt_padding := "dense" |};
     Table_totalCount := total p;
     Table_page := page p;
     Table_actions :=
       [ {| act_icon := Element "SyncIcon" [] [];
            act_tooltip := "Reload workflow runs";
            act_isFreeAction := true;
            act_onClick := retry p |} ];
     Table_data := JS.coalesce (runs p) [];
     Table_onChangePage := onChangePage p;
     Table_onChangeRowsPerPage := onChangePageSize p;
     Table_style := [("width", "100%")];
     Table_title :=
       Element "Box"
         [("display", PString "flex"); ("alignItems", PString "center")]
         [Element "GitHubIcon" [] [];
          Element "Box" [("mr", PString "1")] [];
          Element "Typography" [("variant", PString "h6")]
            [Expr (Some (projectName p))]];
     Table_columns := generatedColumns |}.

(** *** The container *)

(** What [useProjectName(entity)] returns. *)
Record ProjectName : Type := {
  value : option string;
  name_loading : bool
}.

(** The argument of [useWorkflowRuns]. [owner] and [repo] are elements of
    a destructured array, hence possibly [undefined] at run time. *)
Record RunsQuery : Type := {
  owner : option string;
  repo : option string;
  branch : option string
}.

(** The first component of what [useWorkflowRuns] returns: [runs], and
    the remaining properties, which the container spreads into the view's
    props as [tableProps]. *)
Record RunsState : Type := {
  hook_runs : option (list WorkflowRun);
  hook_loading : bool;
  hook_page : number;
  hook_total : number;
  hook_pageSize : number;
  hook_projectName : string
}.

(** The second component. *)
Record RunsActions : Type := {
  hook_retry : Effect;
  setPage : number -> Effect;
  setPageSize : number -> Effect
}.

Variable useProjectName : Entity -> ProjectName.
Variable useWorkflowRuns : RunsQuery -> RunsState * RunsActions.

(** [const [owner, repo] = (projectName ?? '/').split('/')], then the
    object literal [{ owner, repo, branch }]. *)
Definition runsQuery (projectName : option string) (branch : option string)
  : RunsQuery :=
  let parts := JS.split "/"%char (JS.coalesce projectName "/") in
  {| owner := JS.index parts 0; repo := JS.index parts 1;
     branch := branch |}.

(** [`https://github.com/${projectName}/actions/new`] *)
Definition newWorkflowHref (projectName : option string) : string :=
  "https://github.com/" ++ JS.toString projectName ++ "/actions/new".

Record EmptyStateProps : Type := {
  missing : string;
  empty_title : string;
  description : string;
  action : Node
}.

(** What the container returns: one of two elements. *)
Inductive Rendered : Type :=
| EmptyState (p : EmptyStateProps)
| View (p : Props).

Definition emptyState (projectName : option string) : EmptyStateProps :=
  {| missing := "data";
     empty_title := "No Workflow Data";
     description := "This component has Github Actions enabled, but no data was found. Have you created any Workflows? Click the button below to create a new Workflow.";
     action :=
       Element "Button"
         [("variant", PString "contained"); ("color", PString "primary");
          ("href", PString (newWorkflowHref projectName))]
         [Expr (Some "Create new Workflow")] |}.

(** The view's props are [{...tableProps}] followed by explicit
    attributes: [page], [total], [pageSize] and [projectName] come from
    the spread, and the explicit [loading] written after the spread
    replaces the spread's own. *)
Definition WorkflowRunsTable (entity : Entity) (branch : option string)
  : Rendered :=
  let pn := useProjectName entity in
  let projectName := value pn in
  let loading := name_loading pn in
  let '(tableProps, actions) := useWorkflowRuns (runsQuery projectName branch) in
  if JS.not (hook_runs tableProps) then
    EmptyState (emptyState projectName)
  else
    View {| loading := loading || hook_loading tableProps;
            retry := hook_retry actions;
            runs := hook_runs tableProps;
            projectName := hook_projectName tableProps;
            page := hook_page tableProps;
            onChangePage := setPage actions;
            total := hook_total tableProps;
            pageSize := hook_pageSize tableProps;
            onChangePageSize := setPageSize actions |}.

End Components.

Arguments PString {Effect} s.
Arguments PValue {Effect} v.
Arguments PFlag {Effect} b.
Arguments PComponent {Effect} name.
Arguments Expr {Effect} v.
Arguments generatedColumns {Effect} generatePath buildRouteRef_path.
Arguments emptyState {Effect} projectName.
Arguments EmptyState {number Effect} p.

(** *** Observations on rendered output *)

Section Observations.

Variables number Effect : Type.

Definition showsEmptyState (r : Rendered number Effect) : bool :=
  match r with
  | EmptyState _ => true
  | View _ => false
  end.

Definition showsView (r : Rendered number Effect) : bool :=
  match r with
  | EmptyState _ => false
  | View _ => true
  end.

(** The value of prop [name] of an element. *)
Definition prop (name : string) (n : Node Effect)
  : option (PropValue Effect) :=
  match n with
  | Expr _ => None
  | Element _ props _ =>
      match find (fun kv => String.eqb (fst kv) name) props with
      | Some kv => Some (snd kv)
      | None => None
      end
  end.

(** The row has no [source.commit]: either [source] itself is absent, or
    it is there without a [commit]. *)
Definition lacksCommit (row : WorkflowRun Effect) : bool :=
  match source row with
  | Some s => negb (JS.truthy (commit s))
  | None => true
  end.

(** [{...p, runs: r}] *)
Definition withRuns (p : Props number Effect)
           (r : option (list (WorkflowRun Effect))) : Props number Effect :=
  {| loading := loading p; retry := retry p; runs := r;
     projectName := projectName p; page := page p;
     onChangePage := onChangePage p; total := total p;
     pageSize := pageSize p; onChangePageSize := onChangePageSize p |}.

(** The element the Message column produces for a link target. *)
Definition messageLink (to : string) (row : WorkflowRun Effect)
  : Node Effect :=
  Element "Link"
    [("component", PComponent "RouterLink"); ("to", PString to)]
    [Expr (message row)].

(** The element the Source column produces for a branch name and a
    commit hash. *)
Definition sourceBlock (branch h : option string) : Node Effect :=
  Element "Typography"
    [("variant", PString "body2"); ("noWrap", PFlag true)]
    [Element "p" [] [Expr branch]; Element "p" [] [Expr h]].

End Observations.

Arguments sourceBlock {Effect} branch h.

(** *** Observations on rows and cells *)

Section RowObservations.

Variable Effect : Type.

(** The callbacks among the props of one element. *)
Definition propHandlers (props : list (string * PropValue Effect))
  : list (option Effect) :=
  flat_map (fun kv => match snd kv with
                      | PHandler h => [h]
                      | _ => []
                      end) props.

(** Every callback a node carries, at any depth. *)
Fixpoint handlers (n : Node Effect) : list (option Effect) :=
  match n with
  | Expr _ => []
  | Element _ props children =>
      propHandlers props ++ flat_map handlers children
  end.

(** The cells of a row: for each column that has a [render], in column
    order, its title and what [render] yields on the row. *)
Definition rowCells (columns : list (TableColumn Effect))
           (row : WorkflowRun Effect)
  : list (string * JS.Result (Node Effect)) :=
  flat_map (fun c => match render c with
                     | Some r => [(title c, r row)]
                     | None => []
                     end) columns.

(** [source] is there without a [commit]. *)
Definition sourceWithoutCommit (row : WorkflowRun Effect) : bool :=
  match source row with
  | Some s => negb (JS.truthy (commit s))
  | None => false
  end.

End RowObservations.

(** *** A concrete instance

    Page numbers are naturals, callbacks record which request they make, and
    an entity carries what the project-name resolver will answer. *)

Module Example.

Inductive Call : Type :=
| Reload
| GoToPage (n : nat)
| ResizePage (n : nat)
| ReRun (run : string).

Definition fullSource : Source :=
  {| branchName := Some "master";
     commit := Some {| hash := Some "3f2a9c1";
                       commit_url := Some "https://github.com/acme/widgets/commit/3f2a9c1" |} |}.

Definition run (i : option string) (src : option Source)
  : WorkflowRun Call :=
  {| id := i; message := Some "Fix the build"; url := None;
     githubUrl := None; source := src; status := Some "completed";
     conclusion := Some "success";
     onReRunClick := Some (ReRun (JS.toString i)) |}.

Definition run1 : WorkflowRun Call := run (Some "1001") (Some fullSource).
Definition run2 : WorkflowRun Call := run (Some "1002") (Some fullSource).
Definition runWithoutId : WorkflowRun Call := run None (Some fullSource).
Definition runWithoutSource : WorkflowRun Call := run (Some "1003") None.
Definition runWithoutCommit : WorkflowRun Call :=
  run (Some "1004") (Some {| branchName := Some "master"; commit := None |}).

Definition path : string := "/workflow-run/:id".

(** An entity whose project name resolves, with the lookup still in
    flight, and one without a project name. *)
Definition acme : ProjectName :=
  {| value := Some "acme/widgets"; name_loading := true |}.

Definition unnamed : ProjectName :=
  {| value := None; name_loading := false |}.

Definition useProjectName (entity : ProjectName) : ProjectName := entity.

Definition useWorkflowRuns (rs : option (list (WorkflowRun Call)))
           (fetching : bool) (q : RunsQuery)
  : RunsState nat Call * RunsActions nat Call :=
  ({| hook_runs := rs; hook_loading := fetching; hook_page := 0;
      hook_total := List.length (JS.coalesce rs []); hook_pageSize := 5;
      hook_projectName :=
        JS.toString (owner q) ++ "/" ++ JS.toString (repo q) |},
   {| hook_retry := Reload; setPage := GoToPage;
      setPageSize := ResizePage |}).

Definition props (rs : option (list (WorkflowRun Call)))
  : Props nat Call :=
  {| loading := false; retry := Reload; runs := rs;
     projectName := "acme/widgets"; page := 2; onChangePage := GoToPage;
     total := 12; pageSize := 5; onChangePageSize := ResizePage |}.

End Example.

Unset Implicit Arguments.

(* ================================================================== *)
(** ** Properties of the JavaScript fragment *)
(* ================================================================== *)

Lemma split_nonempty (sep : ascii) (s : string) : JS.split sep s <> [].
Proof.
  destruct s as [|c rest]; simpl; [discriminate|].
  destruct (Ascii.eqb c sep); [discriminate|].
  destruct (JS.split sep rest); discriminate.
Qed.

(** Joining the pieces with the separator gives the string back. *)
Lemma join_split (sep : ascii) (s : string) :
  JS.join sep (JS.split sep s) = s.
Proof.
  induction s as [|c rest IH]; simpl; [reflexivity|].
  destruct (Ascii.eqb_spec c sep) as [->|Hne].
  - pose proof (split_nonempty sep rest) as Hnil.
    simpl. destruct (JS.split sep rest) as [|p ps]; [contradiction|].
    simpl in *. now rewrite IH.
  - destruct (JS.split sep rest) as [|p ps] eqn:E.
    + now destruct (split_nonempty sep rest).
    + simpl in *. destruct ps; simpl in *; now rewrite <- IH.
Qed.

(** No piece contains the separator. *)
Lemma split_pieces (sep : ascii) (s : string) :
  Forall (fun p => JS.occurs sep p = false) (JS.split sep s).
Proof.
  induction s as [|c rest IH]; simpl.
  - repeat constructor.
  - destruct (Ascii.eqb_spec c sep) as [->|Hne].
    + constructor; [reflexivity | exact IH].
    + apply Ascii.eqb_neq in Hne.
      destruct (JS.split sep rest) as [|p ps].
      * constructor; [|constructor]. simpl. now rewrite Hne.
      * inversion IH as [|? ? Hp Hps]; subst.
        constructor; [|assumption]. simpl. now rewrite Hne, Hp.
Qed.

(** A string without the separator is its own single piece. *)
Lemma split_plain (sep : ascii) (a : string) :
  JS.occurs sep a = false -> JS.split sep a = [a].
Proof.
  induction a as [|c rest IH]; simpl; [reflexivity|].
  intros H. apply orb_false_iff in H as [Hc Hrest].
  rewrite Hc, (IH Hrest). reflexivity.
Qed.

(** The first piece is the text before the first separator. *)
Lemma split_app (sep : ascii) (a b : string) :
  JS.occurs sep a = false ->
  JS.split sep (a ++ String sep b) = a :: JS.split sep b.
Proof.
  induction a as [|c rest IH]; simpl.
  - intros _. now rewrite Ascii.eqb_refl.
  - intros H. apply orb_false_iff in H as [Hc Hrest].
    rewrite Hc, (IH Hrest). reflexivity.
Qed.

(* ================================================================== *)
(** ** Properties of the routing primitive *)
(* ================================================================== *)

Lemma string_app_nil_r (s : string) : s ++ "" = s.
Proof. induction s as [|c rest IH]; simpl; [reflexivity | now rewrite IH]. Qed.

(** Text without a colon is copied to the output. *)
Lemma interpolate_plain (params : ReactRouter.Params) (pre s : string) :
  JS.occurs ":"%char pre = false ->
  ReactRouter.interpolate params 0 (pre ++ s)
  = (out <- ReactRouter.interpolate params 0 s ;; JS.Ok (pre ++ out)).
Proof.
  induction pre as [|c rest IH]; simpl.
  - intros _. now destruct (ReactRouter.interpolate params 0 s).
  - intros H. apply orb_false_iff in H as [Hc Hrest].
    rewrite Hc, (IH Hrest).
    now destruct (ReactRouter.interpolate params 0 s).
Qed.

(** A template that ends in [:id] and has no other parameter is
    instantiated by putting the id in its place. *)
Lemma generatePath_id (pre i : string) :
  JS.occurs ":"%char pre = false ->
  ReactRouter.generatePath (pre ++ ":id") [("id", Some i)]
  = JS.Ok (ReactRouter.strip_splat (pre ++ i)).
Proof.
  intros H. unfold ReactRouter.generatePath.
  rewrite (interpolate_plain _ _ _ H). simpl.
  now rewrite string_app_nil_r.
Qed.

(** The same template raises when the id is [undefined]. *)
Lemma generatePath_id_missing (pre : string) :
  JS.occurs ":"%char pre = false ->
  ReactRouter.generatePath (pre ++ ":id") [("id", None)]
  = JS.Throw (ReactRouter.missing_param "id").
Proof.
  intros H. unfold ReactRouter.generatePath.
  rewrite (interpolate_plain _ _ _ H). reflexivity.
Qed.

(* ================================================================== *)
(** ** Properties of the components *)
(* ================================================================== *)

(** What lines 176-200 make of the resolver's answer [pn] and of the
    fetcher's answer [r]: the empty-state panel when [r] has no runs, and
    otherwise the view, with props taken from [r]. *)
Abbreviation outcome pn r :=
  (match hook_runs (fst r) with
   | None => EmptyState (emptyState (value pn))
   | Some rs =>
       View {| loading := name_loading pn || hook_loading (fst r);
               retry := hook_retry (snd r);
               runs := Some rs;
               projectName := hook_projectName (fst r);
               page := hook_page (fst r);
               onChangePage := setPage (snd r);
               total := hook_total (fst r);
               pageSize := hook_pageSize (fst r);
               onChangePageSize := setPageSize (snd r) |}
   end).

Section Properties.

Variables number Effect Entity : Type.
Variable generatePath : string -> ReactRouter.Params -> JS.Result string.
Variable buildRouteRef_path : string.
Variable useProjectName : Entity -> ProjectName.
Variable useWorkflowRuns :
  RunsQuery -> RunsState number Effect * RunsActions number Effect.

Local Abbreviation container :=
  (WorkflowRunsTable useProjectName useWorkflowRuns).
Local Abbreviation resolved entity := (useProjectName entity).
Local Abbreviation fetched entity branch :=
  (useWorkflowRuns (runsQuery (value (useProjectName entity)) branch)).

Lemma container_without_runs (entity : Entity) (branch : option string) :
  hook_runs (fst (fetched entity branch)) = None ->
  container entity branch = EmptyState (emptyState (value (resolved entity))).
Proof.
  unfold WorkflowRunsTable.
  destruct (useWorkflowRuns _) as [st acts]; simpl.
  intros ->. reflexivity.
Qed.

Lemma container_with_runs (entity : Entity) (branch : option string)
      (rs : list (WorkflowRun Effect)) :
  hook_runs (fst (fetched entity branch)) = Some rs ->
  container entity branch
  = View {| loading := name_loading (resolved entity)
                       || hook_loading (fst (fetched entity branch));
            retry := hook_retry (snd (fetched entity branch));
            runs := Some rs;
            projectName := hook_projectName (fst (fetched entity branch));
            page := hook_page (fst (fetched entity branch));
            onChangePage := setPage (snd (fetched entity branch));
            total := hook_total (fst (fetched entity branch));
            pageSize := hook_pageSize (fst (fetched entity branch));
            onChangePageSize := setPageSize (snd (fetched entity branch)) |}.
Proof.
  unfold WorkflowRunsTable.
  destruct (useWorkflowRuns _) as [st acts]; simpl.
  intros ->. reflexivity.
Qed.

(** C1. The container renders the empty-state panel exactly when [runs]
    is undefined and the view exactly when [runs] is present, an empty
    array included; which of the two it renders is a function of the
    presence of [runs] alone, whatever the two loading flags and the
    length of [runs] are. *)
Theorem WorkflowRunsTable_branches_on_presence
        (entity : Entity) (branch : option string) :
  (showsEmptyState (container entity branch) = true
   <-> hook_runs (fst (fetched entity branch)) = None)
  /\ (showsView (container entity branch) = true
      <-> exists rs, hook_runs (fst (fetched entity branch)) = Some rs)
  /\ (hook_runs (fst (fetched entity branch)) = Some []
      -> showsView (container entity branch) = true)
  /\ showsEmptyState (container entity branch)
     = JS.not (hook_runs (fst (fetched entity branch)))
  /\ showsView (container entity branch)
     = JS.truthy (hook_runs (fst (fetched entity branch))).
Proof.
  destruct (hook_runs (fst (fetched entity branch))) as [rs|] eqn:E.
  - rewrite (container_with_runs _ _ _ E); simpl.
    repeat split; try discriminate; eauto.
  - rewrite (container_without_runs _ _ E); simpl.
    repeat split; try discriminate; auto.
    intros [rs H]; discriminate.
Qed.

(** C2. When [runs] is present, the loading value the container passes to
    the view is the disjunction of the project-name flag and the run-fetch
    flag, and that is the value the view hands to the table as
    [isLoading]: it is on exactly when at least one of the two is. *)
Theorem WorkflowRunsTable_loading_is_or
        (entity : Entity) (branch : option string)
        (rs : list (WorkflowRun Effect)) :
  hook_runs (fst (fetched entity branch)) = Some rs ->
  exists p,
    container entity branch = View p
    /\ runs p = Some rs
    /\ loading p = name_loading (resolved entity)
                   || hook_loading (fst (fetched entity branch))
    /\ Table_isLoading (WorkflowRunsTableView generatePath buildRouteRef_path p)
       = loading p
    /\ (loading p = true <->
        name_loading (resolved entity) = true
        \/ hook_loading (fst (fetched entity branch)) = true).
Proof.
  intros E. rewrite (container_with_runs _ _ _ E).
  eexists; split; [reflexivity|]. simpl.
  repeat split; auto using orb_prop.
  intros [H|H]; rewrite H; auto using orb_true_r.
Qed.

(** The container consults the run-fetcher at [runsQuery] and nowhere
    else: another fetcher that answers this one query alike yields the same
    output. *)
Lemma container_consults_query
      (other : RunsQuery -> RunsState number Effect * RunsActions number Effect)
      (entity : Entity) (branch : option string) :
  other (runsQuery (value (resolved entity)) branch) = fetched entity branch ->
  WorkflowRunsTable useProjectName other entity branch
  = container entity branch.
Proof. unfold WorkflowRunsTable. intros ->. reflexivity. Qed.

(** The container's output is what the fetcher answers at [runsQuery],
    wired into the empty-state panel or the view. *)
Lemma container_outcome (entity : Entity) (branch : option string) :
  container entity branch
  = outcome (resolved entity) (fetched entity branch).
Proof.
  unfold WorkflowRunsTable.
  destruct (useWorkflowRuns _) as [st acts]; simpl.
  destruct (hook_runs st); reflexivity.
Qed.

(** C3. The container applies the run-fetcher to the query whose owner is
    the first piece of the resolved project name split on [/] and whose
    repo is the second piece, and its output is what the fetcher answers
    there: for a name [a/b] the fetcher receives owner [a] and repo [b],
    and for a name without [/] there is no second piece and repo is
    undefined. When the lookup returns undefined, the string ["/"] is
    split instead: the fetcher is applied all the same, with owner and
    repo both the empty string, and nothing rejects that query. The
    fetcher's answers at other queries do not matter. *)
Theorem WorkflowRunsTable_owner_repo
        (entity : Entity) (branch : option string) (name a b : string) :
  (value (resolved entity) = Some name ->
   container entity branch
   = outcome (resolved entity)
       (useWorkflowRuns {| owner := JS.index (JS.split "/" name) 0;
                           repo := JS.index (JS.split "/" name) 1;
                           branch := branch |}))
  /\ (value (resolved entity) = Some (a ++ "/" ++ b) ->
      JS.occurs "/" a = false -> JS.occurs "/" b = false ->
      container entity branch
      = outcome (resolved entity)
          (useWorkflowRuns {| owner := Some a; repo := Some b;
                              branch := branch |}))
  /\ (value (resolved entity) = None ->
      container entity branch
      = outcome (resolved entity)
          (useWorkflowRuns {| owner := Some ""; repo := Some "";
                              branch := branch |}))
  /\ (forall other,
      other (runsQuery (value (resolved entity)) branch) = fetched entity branch ->
      WorkflowRunsTable useProjectName other entity branch
      = container entity branch)
  /\ owner (runsQuery (Some name) branch) = JS.index (JS.split "/" name) 0
  /\ repo (runsQuery (Some name) branch) = JS.index (JS.split "/" name) 1
  /\ (JS.occurs "/" a = false -> JS.occurs "/" b = false ->
      runsQuery (Some (a ++ "/" ++ b)) branch
      = {| owner := Some a; repo := Some b; branch := branch |})
  /\ (JS.occurs "/" name = false ->
      runsQuery (Some name) branch
      = {| owner := Some name; repo := None; branch := branch |})
  /\ runsQuery None branch
     = {| owner := Some ""; repo := Some ""; branch := branch |}.
Proof.
  assert (Hab : JS.occurs "/" a = false -> JS.occurs "/" b = false ->
                runsQuery (Some (a ++ "/" ++ b)) branch
                = {| owner := Some a; repo := Some b; branch := branch |}).
  { intros Ha Hb. unfold runsQuery. cbn [JS.coalesce].
    change (a ++ "/" ++ b) with (a ++ String "/" b).
    rewrite (split_app _ _ _ Ha), (split_plain _ _ Hb). reflexivity. }
  split; [intros Hname; rewrite container_outcome, Hname; reflexivity|].
  split; [intros Hname Ha Hb;
          rewrite container_outcome, Hname, (Hab Ha Hb); reflexivity|].
  split; [intros Hname; rewrite container_outcome, Hname; reflexivity|].
  split; [intros other; apply container_consults_query|].
  repeat split.
  - exact Hab.
  - intros Hname. unfold runsQuery. cbn [JS.coalesce].
    rewrite (split_plain _ _ Hname). reflexivity.
Qed.

(** C4. When the entity resolves to ["acme/widgets"], the container
    applies the run-fetcher to owner ["acme"] and repo ["widgets"] and
    renders what the fetcher answers there, and whenever the empty-state
    panel is shown its button links to
    [https://github.com/acme/widgets/actions/new]. *)
Theorem WorkflowRunsTable_acme_widgets
        (entity : Entity) (branch : option string) :
  value (resolved entity) = Some "acme/widgets" ->
  container entity branch
  = outcome (resolved entity)
      (useWorkflowRuns {| owner := Some "acme"; repo := Some "widgets";
                          branch := branch |})
  /\ runsQuery (value (resolved entity)) branch
     = {| owner := Some "acme"; repo := Some "widgets"; branch := branch |}
  /\ (showsEmptyState (container entity branch) = true ->
      exists p,
        container entity branch = EmptyState p
        /\ prop "href" (action p)
           = Some (PString "https://github.com/acme/widgets/actions/new")).
Proof.
  intros Hname.
  split; [rewrite container_outcome, Hname; reflexivity|].
  split; [now rewrite Hname|].
  destruct (hook_runs (fst (fetched entity branch))) as [rs|] eqn:E.
  - rewrite (container_with_runs _ _ _ E). discriminate.
  - rewrite (container_without_runs _ _ E). intros _.
    eexists; split; [reflexivity|]. now rewrite Hname.
Qed.

(** C10. When the project-name lookup and [runs] are both undefined, the
    empty-state panel is shown and its button links to
    [https://github.com/undefined/actions/new]. *)
Theorem WorkflowRunsTable_undefined_name_href
        (entity : Entity) (branch : option string) :
  value (resolved entity) = None ->
  hook_runs (fst (fetched entity branch)) = None ->
  exists p,
    container entity branch = EmptyState p
    /\ prop "href" (action p)
       = Some (PString "https://github.com/undefined/actions/new").
Proof.
  intros Hname E. rewrite (container_without_runs _ _ E).
  eexists; split; [reflexivity|]. now rewrite Hname.
Qed.

Local Abbreviation view :=
  (WorkflowRunsTableView (number := number) generatePath buildRouteRef_path).

(** The Message cell of a row, whatever the row holds. *)
Lemma message_cell (row : WorkflowRun Effect) :
  cell (generatedColumns generatePath buildRouteRef_path) "Message" row
  = Some (renderMessage generatePath buildRouteRef_path row).
Proof. reflexivity. Qed.

(** A row of the declared type has an id. *)
Lemma valid_has_id (row : WorkflowRun Effect) :
  valid row = true -> exists i, id row = Some i.
Proof.
  unfold valid. destruct (id row) as [i|]; [eauto | discriminate].
Qed.

(** With react-router's primitive and a template that ends in its only
    parameter [:id], the Message cell of every valid row is a link. *)
Lemma message_cell_valid (pre : string) (row : WorkflowRun Effect) :
  JS.occurs ":"%char pre = false ->
  valid row = true ->
  exists i,
    id row = Some i
    /\ cell (generatedColumns ReactRouter.generatePath (pre ++ ":id"))
         "Message" row
       = Some (JS.Ok (messageLink (ReactRouter.strip_splat (pre ++ i)) row)).
Proof.
  intros Hpre Hvalid. destruct (valid_has_id row Hvalid) as [i Hid].
  exists i. split; [exact Hid|].
  cbn [cell column generatedColumns find title String.eqb Ascii.eqb
       Bool.eqb render].
  unfold renderMessage. rewrite Hid, (generatePath_id _ _ Hpre).
  reflexivity.
Qed.

(** C5. The view hands the table exactly the rows of [runs], as many as
    there are, and the Message cell of each is a link whose target is what
    the routing primitive makes of the run-detail template and the row's
    id. *)
Theorem WorkflowRunsTableView_rows
        (p : Props number Effect) (rs : list (WorkflowRun Effect)) :
  runs p = Some rs ->
  Table_data (view p) = rs
  /\ List.length (Table_data (view p)) = List.length rs
  /\ forall row, In row rs ->
       cell (Table_columns (view p)) "Message" row
       = Some (to <- generatePath buildRouteRef_path [("id", id row)] ;;
               JS.Ok (messageLink to row))
       /\ forall to,
            generatePath buildRouteRef_path [("id", id row)] = JS.Ok to ->
            cell (Table_columns (view p)) "Message" row
            = Some (JS.Ok (messageLink to row))
            /\ prop "to" (messageLink to row) = Some (PString to).
Proof.
  intros Hruns. cbn [WorkflowRunsTableView Table_data Table_columns].
  rewrite Hruns. cbn [JS.coalesce].
  split; [reflexivity|]. split; [reflexivity|].
  intros row _. split; [reflexivity|].
  intros to Hto. split; [|reflexivity].
  rewrite message_cell. unfold renderMessage. now rewrite Hto.
Qed.

(** C6. The view forwards [page], [pageSize] and [total] to the table as
    they are, and the table's page and page-size change handlers are the
    caller's [onChangePage] and [onChangePageSize], applied to the value the
    table supplies. *)
Theorem WorkflowRunsTableView_pagination (p : Props number Effect) :
  Table_page (view p) = page p
  /\ opt_pageSize (Table_options (view p)) = pageSize p
  /\ Table_totalCount (view p) = total p
  /\ (forall n, Table_onChangePage (view p) n = onChangePage p n)
  /\ (forall n, Table_onChangeRowsPerPage (view p) n = onChangePageSize p n).
Proof. repeat split. Qed.

(** C9. Given undefined [runs], the view still produces the table, with an
    empty array as its data: its output is the one it produces for an empty
    list. The container does tell the two apart: undefined [runs] gives the
    empty-state panel and an empty list gives the view. *)
Theorem WorkflowRunsTableView_undefined_runs (p : Props number Effect) :
  runs p = None ->
  Table_data (view p) = []
  /\ view p = view (withRuns p (Some []))
  /\ (forall entity branch,
         hook_runs (fst (fetched entity branch)) = None ->
         showsEmptyState (container entity branch) = true)
  /\ (forall entity branch,
         hook_runs (fst (fetched entity branch)) = Some [] ->
         showsView (container entity branch) = true).
Proof.
  intros Hruns. unfold WorkflowRunsTableView. rewrite Hruns.
  repeat split.
  - intros entity branch E. now rewrite (container_without_runs _ _ E).
  - intros entity branch E. now rewrite (container_with_runs _ _ _ E).
Qed.

(** What the Source column renders, by cases on the row. *)
Lemma renderSource_cases (row : WorkflowRun Effect) :
  renderSource row
  = match source row with
    | None => JS.Ok (sourceBlock None None)
    | Some s =>
        match commit s with
        | None => JS.Throw (JS.ReadOfUndefined "hash")
        | Some c => JS.Ok (sourceBlock (branchName s) (hash c))
        end
    end.
Proof.
  unfold renderSource. destruct (source row) as [s|]; [|reflexivity].
  simpl. destruct (commit s); reflexivity.
Qed.

(** C7, amended. The Source column does not validate the row. For a row
    without [source.commit] it renders undefined for the branch name and
    for the commit hash when [source] itself is absent; when [source] is
    there but has no [commit], reading the hash raises a TypeError. *)
Theorem renderSource_without_commit (row : WorkflowRun Effect) :
  lacksCommit row = true ->
  (source row = None -> renderSource row = JS.Ok (sourceBlock None None))
  /\ (source row <> None ->
      renderSource row = JS.Throw (JS.ReadOfUndefined "hash"))
  /\ (JS.succeeds (renderSource row) = true <-> source row = None).
Proof.
  unfold lacksCommit. rewrite renderSource_cases.
  destruct (source row) as [s|]; [|intros _; repeat split; congruence].
  destruct (commit s); simpl; [discriminate|]. intros _.
  repeat split; congruence.
Qed.

(** C8, amended. The Message column performs no check on the id: an absent
    id is passed to the routing primitive as it is. The cell is a link to
    the path the primitive returns, and when the primitive raises, so does
    the column. *)
Theorem renderMessage_without_id (row : WorkflowRun Effect) :
  id row = None ->
  renderMessage generatePath buildRouteRef_path row
  = (to <- generatePath buildRouteRef_path [("id", None)] ;;
     JS.Ok (messageLink to row))
  /\ (forall to,
         generatePath buildRouteRef_path [("id", None)] = JS.Ok to ->
         renderMessage generatePath buildRouteRef_path row
         = JS.Ok (messageLink to row))
  /\ (forall e,
         generatePath buildRouteRef_path [("id", None)] = JS.Throw e ->
         renderMessage generatePath buildRouteRef_path row = JS.Throw e).
Proof.
  intros Hid. unfold renderMessage. rewrite Hid.
  repeat split; intros ? ->; reflexivity.
Qed.

End Properties.

(* ================================================================== *)
(** ** The properties at the concrete instance *)
(* ================================================================== *)

(** With one run fetched and the project-name lookup still in flight, the
    view is told it is loading. *)
Lemma WorkflowRunsTable_loading_is_or_witness :
  hook_runs
    (fst (Example.useWorkflowRuns (Some [Example.run1]) false
            (runsQuery (value (Example.useProjectName Example.acme)) None)))
  = Some [Example.run1]
  /\ exists p,
      WorkflowRunsTable Example.useProjectName
        (Example.useWorkflowRuns (Some [Example.run1]) false)
        Example.acme None = View p
      /\ loading p = true.
Proof.
  split; [reflexivity|].
  destruct (WorkflowRunsTable_loading_is_or
              nat Example.Call ProjectName
              ReactRouter.generatePath Example.path
              Example.useProjectName
              (Example.useWorkflowRuns (Some [Example.run1]) false)
              Example.acme None [Example.run1] eq_refl)
    as (p & Hview & _ & Hloading & _).
  exists p. split; [exact Hview | exact Hloading].
Defined.

(** The entity [acme] with no runs fetched: the fetcher is applied to
    owner [acme] and repo [widgets], and the panel links to the project. *)
Lemma WorkflowRunsTable_acme_widgets_witness :
  value (Example.useProjectName Example.acme) = Some "acme/widgets"
  /\ WorkflowRunsTable Example.useProjectName
       (Example.useWorkflowRuns None false) Example.acme (Some "master")
     = outcome (Example.useProjectName Example.acme)
         (Example.useWorkflowRuns None false
            {| owner := Some "acme"; repo := Some "widgets";
               branch := Some "master" |})
  /\ (exists p,
      WorkflowRunsTable Example.useProjectName
        (Example.useWorkflowRuns None false) Example.acme (Some "master")
      = EmptyState p
      /\ prop "href" (action p)
         = Some (PString "https://github.com/acme/widgets/actions/new"))
  /\ exists p,
      WorkflowRunsTable Example.useProjectName
        (Example.useWorkflowRuns (Some [Example.run1]) false)
        Example.acme (Some "master")
      = View p
      /\ projectName p = "acme/widgets".
Proof.
  split; [reflexivity|].
  destruct (WorkflowRunsTable_acme_widgets
              nat Example.Call ProjectName Example.useProjectName
              (Example.useWorkflowRuns None false)
              Example.acme (Some "master") eq_refl)
    as (Hfetch & _ & Hlink).
  split; [exact Hfetch|]. split; [exact (Hlink eq_refl)|].
  destruct (WorkflowRunsTable_acme_widgets
              nat Example.Call ProjectName Example.useProjectName
              (Example.useWorkflowRuns (Some [Example.run1]) false)
              Example.acme (Some "master") eq_refl)
    as (Hecho & _).
  cbn [Example.useWorkflowRuns fst snd hook_runs] in Hecho.
  eexists. split; [exact Hecho | reflexivity].
Defined.

(** The entity without a project name and with no runs fetched. *)
Lemma WorkflowRunsTable_undefined_name_href_witness :
  value (Example.useProjectName Example.unnamed) = None
  /\ hook_runs
       (fst (Example.useWorkflowRuns None true
               (runsQuery (value (Example.useProjectName Example.unnamed))
                  None)))
     = None
  /\ exists p,
      WorkflowRunsTable Example.useProjectName
        (Example.useWorkflowRuns None true) Example.unnamed None
      = EmptyState p
      /\ prop "href" (action p)
         = Some (PString "https://github.com/undefined/actions/new").
Proof.
  split; [reflexivity|]. split; [reflexivity|].
  apply (WorkflowRunsTable_undefined_name_href
           nat Example.Call ProjectName Example.useProjectName
           (Example.useWorkflowRuns None true) Example.unnamed None);
    reflexivity.
Defined.

(** Two runs: the table gets both, and the first one's Message cell links
    to the template instantiated with its id. *)
Lemma WorkflowRunsTableView_rows_witness :
  runs (Example.props (Some [Example.run1; Example.run2]))
  = Some [Example.run1; Example.run2]
  /\ Table_data
       (WorkflowRunsTableView ReactRouter.generatePath Example.path
          (Example.props (Some [Example.run1; Example.run2])))
     = [Example.run1; Example.run2]
  /\ cell
       (Table_columns
          (WorkflowRunsTableView ReactRouter.generatePath Example.path
             (Example.props (Some [Example.run1; Example.run2]))))
       "Message" Example.run2
     = Some (JS.Ok (messageLink "/workflow-run/1002" Example.run2)).
Proof.
  split; [reflexivity|].
  destruct (WorkflowRunsTableView_rows
              nat Example.Call ReactRouter.generatePath Example.path
              (Example.props (Some [Example.run1; Example.run2]))
              [Example.run1; Example.run2] eq_refl)
    as (Hdata & _ & Hcells).
  split; [exact Hdata|].
  destruct (Hcells Example.run2 (or_intror (or_introl eq_refl)))
    as [_ Hlink].
  exact (proj1 (Hlink "/workflow-run/1002" eq_refl)).
Defined.

(** The view given undefined [runs]. *)
Lemma WorkflowRunsTableView_undefined_runs_witness :
  runs (Example.props None) = None
  /\ Table_data
       (WorkflowRunsTableView ReactRouter.generatePath Example.path
          (Example.props None))
     = []
  /\ WorkflowRunsTableView ReactRouter.generatePath Example.path
       (Example.props None)
     = WorkflowRunsTableView ReactRouter.generatePath Example.path
         (Example.props (Some [])).
Proof.
  split; [reflexivity|].
  destruct (WorkflowRunsTableView_undefined_runs
              nat Example.Call ProjectName
              ReactRouter.generatePath Example.path
              Example.useProjectName (Example.useWorkflowRuns None false)
              (Example.props None) eq_refl)
    as (Hdata & Hsame & _).
  split; [exact Hdata | exact Hsame].
Defined.

(** C7, as stated, fails: a row whose [source] is there without a [commit]
    makes the Source column raise instead of rendering undefined. *)
Lemma renderSource_commit_absent_raises :
  lacksCommit Example.runWithoutCommit = true
  /\ renderSource Example.runWithoutCommit
     = JS.Throw (JS.ReadOfUndefined "hash")
  /\ JS.succeeds (renderSource Example.runWithoutCommit) = false.
Proof. repeat split. Qed.

(** A row without [source] renders two undefined sub-fields. *)
Lemma renderSource_without_commit_witness :
  lacksCommit Example.runWithoutSource = true
  /\ renderSource Example.runWithoutSource = JS.Ok (sourceBlock None None).
Proof.
  split; [reflexivity|].
  apply (proj1 (renderSource_without_commit
                  Example.Call Example.runWithoutSource eq_refl)).
  reflexivity.
Defined.

(** C8, as stated, fails with react-router's [generatePath]: for a row
    without an id and a template with an [:id] segment, the Message column
    raises, and no link is produced. *)
Lemma renderMessage_absent_id_raises :
  id Example.runWithoutId = None
  /\ renderMessage ReactRouter.generatePath Example.path Example.runWithoutId
     = JS.Throw (ReactRouter.missing_param "id")
  /\ JS.succeeds
       (renderMessage ReactRouter.generatePath Example.path
          Example.runWithoutId)
     = false.
Proof. repeat split. Qed.

(** With a template that has no parameter the primitive returns it, and the
    row without an id links there. *)
Lemma renderMessage_without_id_witness :
  id Example.runWithoutId = None
  /\ renderMessage ReactRouter.generatePath "/workflow-runs"
       Example.runWithoutId
     = JS.Ok (messageLink "/workflow-runs" Example.runWithoutId).
Proof.
  split; [reflexivity|].
  destruct (renderMessage_without_id
              Example.Call ReactRouter.generatePath "/workflow-runs"
              Example.runWithoutId eq_refl)
    as (_ & Hlink & _).
  exact (Hlink "/workflow-runs" eq_refl).
Defined.

(* ================================================================== *)
(** ** Further properties of the query sent to the run-fetcher *)
(* ================================================================== *)

(** There is one more piece than there are separators. *)
Lemma split_length (sep : ascii) (s : string) :
  List.length (JS.split sep s) = S (JS.count sep s).
Proof.
  induction s as [|c rest IH]; simpl; [reflexivity|].
  destruct (Ascii.eqb c sep); simpl; [now rewrite IH|].
  pose proof (split_nonempty sep rest) as Hnil.
  destruct (JS.split sep rest) as [|p ps]; [contradiction|].
  simpl in *. exact IH.
Qed.

Lemma count_zero (sep : ascii) (s : string) :
  JS.count sep s = 0 <-> JS.occurs sep s = false.
Proof.
  induction s as [|c rest IH]; simpl; [tauto|].
  destruct (Ascii.eqb c sep); simpl; [split; discriminate | exact IH].
Qed.

Lemma count_app (sep : ascii) (a b : string) :
  JS.count sep (a ++ b) = JS.count sep a + JS.count sep b.
Proof.
  induction a as [|c rest IH]; simpl; [reflexivity|].
  rewrite IH. lia.
Qed.

(** An element read out of the pieces is one of the pieces. *)
Lemma index_piece (sep : ascii) (s piece : string) (i : nat) :
  JS.index (JS.split sep s) i = Some piece -> JS.occurs sep piece = false.
Proof.
  intros H. apply nth_error_In in H.
  pose proof (split_pieces sep s) as Hall.
  rewrite Forall_forall in Hall. now apply Hall.
Qed.

(** Whatever the project name is, undefined included, the owner of the
    query is a defined string without a slash, and the repo, when it is
    defined, has no slash either. *)
Lemma runsQuery_slash_free (projectName branch : option string) :
  (exists o, owner (runsQuery projectName branch) = Some o
             /\ JS.occurs "/" o = false)
  /\ (forall r, repo (runsQuery projectName branch) = Some r ->
                JS.occurs "/" r = false).
Proof.
  unfold runsQuery; cbn [owner repo]. split.
  - pose proof (split_nonempty "/" (JS.coalesce projectName "/")) as Hnil.
    destruct (JS.split "/" (JS.coalesce projectName "/")) as [|o ps] eqn:E;
      [contradiction|].
    exists o. split; [reflexivity|].
    apply (index_piece "/" (JS.coalesce projectName "/") o 0).
    now rewrite E.
  - intros r. apply index_piece.
Qed.

(** The repo of the query is undefined exactly when the project name is
    defined and contains no slash. *)
Lemma runsQuery_repo_undefined_iff (projectName branch : option string) :
  repo (runsQuery projectName branch) = None
  <-> exists name, projectName = Some name /\ JS.occurs "/" name = false.
Proof.
  unfold runsQuery; cbn [repo]. unfold JS.index.
  rewrite nth_error_None, split_length.
  split.
  - intros Hlen. destruct projectName as [name|]; simpl in Hlen.
    + exists name. split; [reflexivity|]. apply count_zero. lia.
    + lia.
  - intros (name & -> & Hname). simpl.
    apply count_zero in Hname. lia.
Qed.

(** X3. Segments of the project name after the second are dropped: the
    query for [a/b/rest] is the query for [a/b]. *)
Theorem runsQuery_extra_segments (a b rest : string) (branch : option string) :
  JS.occurs "/" a = false ->
  JS.occurs "/" b = false ->
  runsQuery (Some (a ++ "/" ++ b ++ "/" ++ rest)) branch
  = runsQuery (Some (a ++ "/" ++ b)) branch.
Proof.
  intros Ha Hb. unfold runsQuery. cbn [JS.coalesce].
  change (a ++ "/" ++ b ++ "/" ++ rest)
    with (a ++ String "/" (b ++ String "/" rest)).
  change (a ++ "/" ++ b) with (a ++ String "/" b).
  rewrite !(split_app _ _ _ Ha), (split_app _ _ _ Hb), (split_plain _ _ Hb).
  reflexivity.
Qed.

(** X4. Owner and repo are both defined and give the project name back when
    joined with a slash exactly when the name contains one slash. *)
Theorem runsQuery_round_trip (name : string) (branch : option string) :
  JS.count "/" name = 1
  <-> exists o r,
      owner (runsQuery (Some name) branch) = Some o
      /\ repo (runsQuery (Some name) branch) = Some r
      /\ o ++ "/" ++ r = name.
Proof.
  unfold runsQuery; cbn [owner repo JS.coalesce]. split.
  - intros Hcount.
    pose proof (split_length "/" name) as Hlen.
    pose proof (join_split "/" name) as Hjoin.
    destruct (JS.split "/" name) as [|o [|r [|x xs]]];
      simpl in Hlen; try lia.
    exists o, r. repeat split. exact Hjoin.
  - intros (o & r & Ho & Hr & Hname).
    apply index_piece in Ho. apply index_piece in Hr.
    apply count_zero in Ho. apply count_zero in Hr.
    rewrite <- Hname.
    change (o ++ "/" ++ r) with (o ++ String "/" r).
    rewrite count_app. simpl. lia.
Qed.

Lemma runsQuery_extra_segments_witness :
  JS.occurs "/" "acme" = false
  /\ JS.occurs "/" "widgets" = false
  /\ runsQuery (Some "acme/widgets/tree/main") None
     = runsQuery (Some "acme/widgets") None.
Proof.
  split; [reflexivity|]. split; [reflexivity|].
  apply (runsQuery_extra_segments "acme" "widgets" "tree/main" None);
    reflexivity.
Defined.

(* ================================================================== *)
(** ** Further properties of the columns *)
(* ================================================================== *)

Section Rows.

Variable Effect : Type.
Variable generatePath : string -> ReactRouter.Params -> JS.Result string.
Variable buildRouteRef_path : string.

Local Abbreviation columns := (generatedColumns generatePath buildRouteRef_path).

(** The four rendered cells of a row, in column order; the ID column has no
    [render] and shows its field. *)
Lemma rowCells_columns (row : WorkflowRun Effect) :
  rowCells columns row
  = [ ("Message", renderMessage generatePath buildRouteRef_path row);
      ("Source", renderSource row);
      ("Status", renderStatus row);
      ("Actions", renderActions row) ].
Proof. reflexivity. Qed.

(** X5. The only callback in the rendered cells of a row is that row's own
    [onReRunClick], on the button of its Actions cell: the Message, Source
    and Status cells carry no callback. *)
Theorem rerun_is_the_only_handler
        (row : WorkflowRun Effect) (t : string) (n : Node Effect) :
  In (t, JS.Ok n) (rowCells columns row) ->
  handlers n = if String.eqb t "Actions" then [onReRunClick row] else [].
Proof.
  rewrite rowCells_columns.
  intros [H|[H|[H|[H|[]]]]]; inversion H as [[Ht Hn]]; clear H.
  - unfold renderMessage in Hn.
    destruct (generatePath _ _); simpl in Hn; [|discriminate].
    inversion Hn. reflexivity.
  - rewrite renderSource_cases in Hn.
    destruct (source row) as [s|];
      [destruct (commit s); [|discriminate]|]; inversion Hn; reflexivity.
  - reflexivity.
  - reflexivity.
Qed.

(** X6. The cells of a row all render without raising exactly when the
    routing primitive returns a path for the row's id and the row is not
    one whose [source] is there without a [commit]; the Status and Actions
    cells render for every row. *)
Theorem row_renders_iff (row : WorkflowRun Effect) :
  (Forall (fun cell => JS.succeeds (snd cell) = true) (rowCells columns row)
   <-> JS.succeeds (generatePath buildRouteRef_path [("id", id row)]) = true
       /\ sourceWithoutCommit row = false)
  /\ JS.succeeds (renderStatus row) = true
  /\ JS.succeeds (renderActions row) = true.
Proof.
  split; [|split; reflexivity].
  rewrite rowCells_columns, renderSource_cases.
  unfold renderMessage, sourceWithoutCommit.
  split.
  - intros H. inversion H as [|? ? Hm H1]; subst.
    inversion H1 as [|? ? Hs _]; subst. simpl in Hm, Hs. split.
    + now destruct (generatePath _ _).
    + destruct (source row) as [s|]; [|reflexivity].
      now destruct (commit s).
  - intros [Hm Hs]. repeat constructor; simpl.
    + now destruct (generatePath _ _).
    + destruct (source row) as [s|]; [|reflexivity].
      now destruct (commit s).
Qed.

(** X7. The link target of the Message cell depends on the row's id alone:
    two rows with the same id either both raise or link to the same
    target, whatever their other fields are. *)
Theorem message_target_depends_on_id (row1 row2 : WorkflowRun Effect) :
  id row1 = id row2 ->
  JS.succeeds (renderMessage generatePath buildRouteRef_path row1)
  = JS.succeeds (renderMessage generatePath buildRouteRef_path row2)
  /\ forall n1 n2,
      renderMessage generatePath buildRouteRef_path row1 = JS.Ok n1 ->
      renderMessage generatePath buildRouteRef_path row2 = JS.Ok n2 ->
      prop "to" n1 = prop "to" n2.
Proof.
  intros Hid. unfold renderMessage. rewrite Hid.
  destruct (generatePath _ _) as [to|e]; simpl.
  - split; [reflexivity|]. intros n1 n2 H1 H2.
    inversion H1; inversion H2; reflexivity.
  - split; [reflexivity|]. discriminate.
Qed.

End Rows.

Lemma rerun_is_the_only_handler_witness :
  In ("Actions",
      JS.Ok (Element "Tooltip" [("title", PString "Rerun workflow")]
               [Element "IconButton"
                  [("onClick", PHandler (Some (Example.ReRun "1001")))]
                  [Element "RetryIcon" [] []]]))
     (rowCells (generatedColumns ReactRouter.generatePath Example.path)
        Example.run1)
  /\ handlers
       (Element "Tooltip" [("title", PString "Rerun workflow")]
          [Element "IconButton"
             [("onClick", PHandler (Some (Example.ReRun "1001")))]
             [Element "RetryIcon" [] []]])
     = [Some (Example.ReRun "1001")].
Proof.
  assert (Hin : In ("Actions",
      JS.Ok (Element "Tooltip" [("title", PString "Rerun workflow")]
               [Element "IconButton"
                  [("onClick", PHandler (Some (Example.ReRun "1001")))]
                  [Element "RetryIcon" [] []]]))
     (rowCells (generatedColumns ReactRouter.generatePath Example.path)
        Example.run1)).
  { simpl. right. right. right. left. reflexivity. }
  split; [exact Hin|].
  exact (rerun_is_the_only_handler
           Example.Call ReactRouter.generatePath Example.path
           Example.run1 "Actions" _ Hin).
Defined.

Lemma message_target_depends_on_id_witness :
  id Example.run1 = id (Example.run (Some "1001") None)
  /\ prop "to" (messageLink "/workflow-run/1001" Example.run1)
     = prop "to" (messageLink "/workflow-run/1001"
                    (Example.run (Some "1001") None)).
Proof.
  split; [reflexivity|].
  apply (proj2 (message_target_depends_on_id
                  Example.Call ReactRouter.generatePath Example.path
                  Example.run1 (Example.run (Some "1001") None) eq_refl));
    reflexivity.
Defined.

(* ================================================================== *)
(** ** Further properties of the container *)
(* ================================================================== *)

Section Wiring.

Variables number Effect Entity : Type.
Variable generatePath : string -> ReactRouter.Params -> JS.Result string.
Variable buildRouteRef_path : string.
Variable useProjectName : Entity -> ProjectName.
Variable useWorkflowRuns :
  RunsQuery -> RunsState number Effect * RunsActions number Effect.

Local Abbreviation fetched entity branch :=
  (useWorkflowRuns (runsQuery (value (useProjectName entity)) branch)).
Local Abbreviation table p :=
  (WorkflowRunsTableView generatePath buildRouteRef_path p).

(** X8. With runs present, the table the container ends up showing has the
    fetched runs as data and the fetcher's page, total and page size; its
    page and page-size handlers are the fetcher's [setPage] and
    [setPageSize], and its one toolbar action is a free action that calls
    the fetcher's [retry]. *)
Theorem container_table_wiring
        (entity : Entity) (branch : option string)
        (rs : list (WorkflowRun Effect)) :
  hook_runs (fst (fetched entity branch)) = Some rs ->
  exists p,
    WorkflowRunsTable useProjectName useWorkflowRuns entity branch = View p
    /\ Table_data (table p) = rs
    /\ Table_page (table p) = hook_page (fst (fetched entity branch))
    /\ Table_totalCount (table p) = hook_total (fst (fetched entity branch))
    /\ opt_pageSize (Table_options (table p))
       = hook_pageSize (fst (fetched entity branch))
    /\ (forall n, Table_onChangePage (table p) n
                  = setPage (snd (fetched entity branch)) n)
    /\ (forall n, Table_onChangeRowsPerPage (table p) n
                  = setPageSize (snd (fetched entity branch)) n)
    /\ map (fun a => (act_isFreeAction a, act_onClick a))
           (Table_actions (table p))
       = [(true, hook_retry (snd (fetched entity branch)))].
Proof.
  intros E.
  rewrite (container_with_runs _ _ _ useProjectName useWorkflowRuns _ _ _ E).
  eexists; split; [reflexivity|]. repeat split.
Qed.

(** X9. The empty-state panel depends on the resolved project name only:
    for one entity, any two branches and any two run-fetchers that both
    return undefined runs give the same output, whatever their loading
    flags, pagination state and actions are. *)
Theorem empty_state_depends_on_name_only
        (other : RunsQuery -> RunsState number Effect * RunsActions number Effect)
        (entity : Entity) (branch1 branch2 : option string) :
  hook_runs (fst (fetched entity branch1)) = None ->
  hook_runs
    (fst (other (runsQuery (value (useProjectName entity)) branch2))) = None ->
  WorkflowRunsTable useProjectName useWorkflowRuns entity branch1
  = WorkflowRunsTable useProjectName other entity branch2.
Proof.
  intros E1 E2.
  rewrite (container_without_runs _ _ _ useProjectName useWorkflowRuns _ _ E1).
  rewrite (container_without_runs _ _ _ useProjectName other _ _ E2).
  reflexivity.
Qed.

End Wiring.

Lemma container_table_wiring_witness :
  hook_runs
    (fst (Example.useWorkflowRuns (Some [Example.run1; Example.run2]) false
            (runsQuery (value (Example.useProjectName Example.acme)) None)))
  = Some [Example.run1; Example.run2]
  /\ exists p,
      WorkflowRunsTable Example.useProjectName
        (Example.useWorkflowRuns (Some [Example.run1; Example.run2]) false)
        Example.acme None = View p
      /\ Table_onChangePage
           (WorkflowRunsTableView ReactRouter.generatePath Example.path p) 1
         = Example.GoToPage 1
      /\ map (fun a => (act_isFreeAction a, act_onClick a))
             (Table_actions
                (WorkflowRunsTableView ReactRouter.generatePath Example.path p))
         = [(true, Example.Reload)].
Proof.
  split; [reflexivity|].
  destruct (container_table_wiring
              nat Example.Call ProjectName
              ReactRouter.generatePath Example.path
              Example.useProjectName
              (Example.useWorkflowRuns (Some [Example.run1; Example.run2]) false)
              Example.acme None [Example.run1; Example.run2] eq_refl)
    as (p & Hview & _ & _ & _ & _ & Hpage & _ & Hreload).
  exists p. split; [exact Hview|]. split; [exact (Hpage 1) | exact Hreload].
Defined.

Lemma empty_state_depends_on_name_only_witness :
  hook_runs
    (fst (Example.useWorkflowRuns None true
            (runsQuery (value (Example.useProjectName Example.acme)) None)))
  = None
  /\ hook_runs
       (fst (Example.useWorkflowRuns None false
               (runsQuery (value (Example.useProjectName Example.acme))
                  (Some "master"))))
     = None
  /\ WorkflowRunsTable Example.useProjectName
       (Example.useWorkflowRuns None true) Example.acme None
     = WorkflowRunsTable Example.useProjectName
         (Example.useWorkflowRuns None false) Example.acme (Some "master").
Proof.
  split; [reflexivity|]. split; [reflexivity|].
  apply (empty_state_depends_on_name_only
           nat Example.Call ProjectName Example.useProjectName
           (Example.useWorkflowRuns None true)
           (Example.useWorkflowRuns None false)
           Example.acme None (Some "master")); reflexivity.
Defined.

(* ================================================================== *)
(** ** What the run-fetcher receives *)
(* ================================================================== *)

(** The entity without a project name, with one run fetched: the fetcher is
    applied to owner and repo both empty, and the title it builds from them
    reaches the view. *)
Lemma WorkflowRunsTable_owner_repo_witness :
  value (Example.useProjectName Example.unnamed) = None
  /\ exists p,
      WorkflowRunsTable Example.useProjectName
        (Example.useWorkflowRuns (Some [Example.run1]) false)
        Example.unnamed None
      = View p
      /\ projectName p = "/".
Proof.
  split; [reflexivity|].
  destruct (WorkflowRunsTable_owner_repo
              nat Example.Call ProjectName Example.useProjectName
              (Example.useWorkflowRuns (Some [Example.run1]) false)
              Example.unnamed None "" "" "")
    as (_ & _ & Hfetch & _).
  specialize (Hfetch eq_refl).
  cbn [Example.useWorkflowRuns fst snd hook_runs] in Hfetch.
  eexists. split; [exact Hfetch | reflexivity].
Defined.

Section QuerySent.

Variables number Effect Entity : Type.
Variable useProjectName : Entity -> ProjectName.

Local Abbreviation Fetcher :=
  (RunsQuery -> RunsState number Effect * RunsActions number Effect).

(** X1. Whatever the entity's project name is, undefined included, the
    container applies every run-fetcher to one query, whose owner is a
    defined string without a slash and whose repo, when it is defined, has
    no slash either. *)
Theorem fetcher_receives_slash_free
        (entity : Entity) (branch : option string) :
  exists (o : string) (r : option string),
    JS.occurs "/" o = false
    /\ (forall x, r = Some x -> JS.occurs "/" x = false)
    /\ forall useWorkflowRuns : Fetcher,
        WorkflowRunsTable useProjectName useWorkflowRuns entity branch
        = outcome (useProjectName entity)
            (useWorkflowRuns {| owner := Some o; repo := r;
                                branch := branch |}).
Proof.
  destruct (runsQuery_slash_free (value (useProjectName entity)) branch)
    as [(o & Ho & Hfree) Hrepo].
  exists o, (repo (runsQuery (value (useProjectName entity)) branch)).
  split; [exact Hfree|]. split; [exact Hrepo|].
  intros useWorkflowRuns. rewrite container_outcome.
  unfold runsQuery in *. cbn [owner repo] in *.
  rewrite Ho. reflexivity.
Qed.

(** X2. The repo of the query the container applies every run-fetcher to
    is undefined exactly when the entity's project name is defined and
    contains no slash. *)
Theorem fetcher_receives_repo_undefined_iff
        (entity : Entity) (branch : option string) :
  exists (o r : option string),
    (r = None <-> exists name, value (useProjectName entity) = Some name
                               /\ JS.occurs "/" name = false)
    /\ forall useWorkflowRuns : Fetcher,
        WorkflowRunsTable useProjectName useWorkflowRuns entity branch
        = outcome (useProjectName entity)
            (useWorkflowRuns {| owner := o; repo := r; branch := branch |}).
Proof.
  exists (owner (runsQuery (value (useProjectName entity)) branch)),
         (repo (runsQuery (value (useProjectName entity)) branch)).
  split; [apply runsQuery_repo_undefined_iff|].
  intros useWorkflowRuns. rewrite container_outcome. reflexivity.
Qed.

End QuerySent.
